(** * Fine-tuning lab script (05_Training_lab_student.py): a shallow embedding

    The script is glue around external collaborators (a tokenizer, a causal
    language model, a training loop, a hosted API).  What the script itself
    decides is embedded here as executable definitions: the device selection,
    the [inference] helper, the moderation scan, the construction of the
    evaluation report, and the order in which the script's statements touch
    model objects, the checkpoint directory and the trainer.  The external
    collaborators are interfaces: records of the methods the script calls
    ([Tokenizer], [Model]) and of what the libraries compute ([Framework]). *)

From Stdlib Require Import ZArith QArith Ascii String.
From stdpp Require Import base option list gmap strings pretty.

(** ** Python values used by the script *)

(** Exceptions that can end a call.  [IndexError] is the one the script's own
    subscripting can raise on a list, [NameError] the one an unbound variable
    raises; everything raised inside a library is a [LibraryError]. *)
Inductive exn : Type :=
| IndexError
| NameError (name : string)
| LibraryError (msg : string).

(** A call either returns a value or raises. *)
Inductive result (A : Type) : Type :=
| Ok (a : A)
| Raise (e : exn).

Arguments Ok {A} a.
Arguments Raise {A} e.

Definition bind {A B : Type} (r : result A) (k : A -> result B) : result B :=
  match r with
  | Ok a => k a
  | Raise e => Raise e
  end.

Notation "'let!' x ':=' r 'in' k" := (bind r (fun x => k))
  (at level 10, x name, r at level 200, k at level 200).

(** [l[i]] on a Python list, for an index that is not negative. *)
Definition subscript {A : Type} (l : list A) (i : nat) : result A :=
  match l !! i with
  | Some a => Ok a
  | None => Raise IndexError
  end.

(** Python [str] is modelled by [string], one [ascii] per character. *)
Module PyStr.

(** [s[n:]]: the characters of [s] from position [n] on; never raises. *)
Fixpoint slice_from (n : nat) (s : string) : string :=
  match n, s with
  | O, _ => s
  | S _, EmptyString => EmptyString
  | S n', String _ s' => slice_from n' s'
  end.

(** [needle in hay] on strings: [needle] occurs as a contiguous run. *)
Fixpoint contains (needle hay : string) : bool :=
  String.prefix needle hay
  || match hay with
     | EmptyString => false
     | String _ hay' => contains needle hay'
     end.

(** The relation [contains] decides. *)
Definition Substring (needle hay : string) : Prop :=
  exists before after, hay = before +:+ needle +:+ after.

(** [r] is what remains of [d] beyond its first [n] characters. *)
Definition suffix_beyond (n : nat) (d r : string) : Prop :=
  exists p, d = p +:+ r /\ String.length p = Nat.min n (String.length d).

End PyStr.

(** ** Devices and tensors *)

Inductive Device : Type := cpu | cuda.

#[export] Instance Device_eq_dec : EqDecision Device.
Proof. solve_decision. Defined.

(** A tensor of token ids: the device it lives on and its rows. *)
Record Tensor : Type := tensor { t_device : Device; t_rows : list (list Z) }.

(** [t.to(device)] on a tensor returns a tensor with the same entries. *)
Definition tensor_to (t : Tensor) (d : Device) : Tensor :=
  {| t_device := d; t_rows := t_rows t |}.

(** Lines 123-129: the branch on [torch.cuda.device_count()].  The first
    component is the message given to [logger.debug]. *)
Definition device (device_count : Z) : string * Device :=
  if (device_count >? 0)%Z
  then ("Select GPU device", cuda)
  else ("Select CPU device", cpu).

(** ** The collaborators of [inference] *)

(** The two tokenizer methods the script calls:
    [encode(text, return_tensors="pt", truncation=.., max_length=..)] and
    [batch_decode(tokens, skip_special_tokens=..)], which reads the entries
    of the tensor it is given. *)
Record Tokenizer : Type := {
  encode : string -> bool -> nat -> result Tensor;
  batch_decode : list (list Z) -> bool -> result (list string)
}.

(** What [inference] uses of a model: its [device] attribute and
    [generate(input_ids=.., max_length=..)]. *)
Record Model : Type := {
  model_device : Device;
  generate : Tensor -> nat -> result Tensor
}.

(** Lines 143-165. *)
Definition inference (text : string) (model : Model) (tokenizer : Tokenizer)
    (max_input_tokens max_output_tokens : nat) : result string :=
  (* Tokenize *)
  let! input_ids := encode tokenizer text true max_input_tokens in
  (* Generate *)
  let device := model_device model in
  let! generated_tokens_with_prompt :=
    generate model (tensor_to input_ids device) max_output_tokens in
  (* Decode *)
  let! generated_text_with_prompt :=
    batch_decode tokenizer (t_rows generated_tokens_with_prompt) true in
  (* Strip the prompt *)
  let! first := subscript generated_text_with_prompt 0 in
  let generated_text_answer := PyStr.slice_from (String.length text) first in
  Ok generated_text_answer.

(** The three library calls of [inference] returned, and [batch_decode] gave
    at least one string, the first being [decoded]: the only situation in
    which [inference] reaches its slice. *)
Definition decodes_to (text : string) (model : Model) (tokenizer : Tokenizer)
    (max_input_tokens max_output_tokens : nat) (decoded : string) : Prop :=
  exists input_ids generated others,
    encode tokenizer text true max_input_tokens = Ok input_ids
    /\ generate model (tensor_to input_ids (model_device model))
         max_output_tokens = Ok generated
    /\ batch_decode tokenizer (t_rows generated) true
       = Ok (decoded :: others).

(** The defaults of the signature: [max_input_tokens=1000],
    [max_output_tokens=100]. *)
Definition inference_default (text : string) (model : Model)
    (tokenizer : Tokenizer) : result string :=
  inference text model tokenizer 1000 100.

(** The number of tokens [encode] gives for [text] (first row). *)
Definition encoded_length (tokenizer : Tokenizer) (text : string)
    (max_input_tokens : nat) : result nat :=
  let! input_ids := encode tokenizer text true max_input_tokens in
  let! row := subscript (t_rows input_ids) 0 in
  Ok (length row).

(** Whether a completion starts with the prompt text. *)
Definition starts_with_prompt (text : string) (r : result string) : bool :=
  match r with
  | Ok answer => String.prefix text answer
  | Raise _ => false
  end.

(** ** The dataset and the moderation scan *)

(** A row of the dataset, as the script reads it: [row["question"]] and
    [row["answer"]]. *)
Record Example : Type := { question : string; answer : string }.

(** What one [print] call of the scan wrote: the three values of line 349,
    or the count of line 351. *)
Inductive scan_line : Type :=
| MatchLine (i : nat) (question answer : string)
| CountLine (count : nat).

Record scan_state : Type := {
  count : nat;
  scan_printed : list scan_line
}.

Definition moderation_phrase : string :=
  "keep the discussion relevant to Lamini".

(** Lines 348-350: the body of the loop at index [i].  The script reads
    [train_dataset[i]] once per use; the row is the same each time. *)
Definition scan_body (train_dataset : list Example) (i : nat)
    (st : scan_state) : result scan_state :=
  let! row := subscript train_dataset i in
  if PyStr.contains moderation_phrase (answer row)
  then Ok {| count := count st + 1;
             scan_printed :=
               scan_printed st ++ [MatchLine i (question row) (answer row)] |}
  else Ok st.

(** [for i in indices: body], threading the state and stopping at the first
    exception. *)
Fixpoint for_each {S : Type} (body : nat -> S -> result S)
    (indices : list nat) (st : S) : result S :=
  match indices with
  | [] => Ok st
  | i :: rest => let! st' := body i st in for_each body rest st'
  end.

(** Lines 346-351. *)
Definition moderation_scan (train_dataset : list Example) : result scan_state :=
  let st0 := {| count := 0; scan_printed := [] |} in
  let! st := for_each (scan_body train_dataset)
               (seq 0 (length train_dataset)) st0 in
  Ok {| count := count st;
        scan_printed := scan_printed st ++ [CountLine (count st)] |}.

(** Exactly [k] elements of [l] satisfy [P]. *)
Inductive exactly {A : Type} (P : A -> Prop) : list A -> nat -> Prop :=
| exactly_nil : exactly P [] 0
| exactly_hit (x : A) (l : list A) (k : nat) :
    P x -> exactly P l k -> exactly P (x :: l) (S k)
| exactly_miss (x : A) (l : list A) (k : nat) :
    ~ P x -> exactly P l k -> exactly P (x :: l) k.

(** An answer carries the moderation phrase. *)
Definition moderated (e : Example) : Prop :=
  PyStr.Substring moderation_phrase (answer e).

(** ** The report on the hosted evaluation *)

(** The structure [model.evaluate()] returns, as far as the script reads it:
    [out['eval_results']], and for each element [e['input']] and
    [e['outputs'][i]['output']].  The fields read are strings, so formatting
    them with an f-string gives them back. *)
Record Output : Type := { output : string }.
Record EvalResult : Type := { input : string; outputs : list Output }.
Record Evaluation : Type := { eval_results : list EvalResult }.

(** Lines 394-397: the dict built for one element. *)
Definition report_row (e : EvalResult) : result (gmap string string) :=
  let q := input e in
  let! o0 := subscript (outputs e) 0 in
  let at' := output o0 in
  let! o1 := subscript (outputs e) 1 in
  let ab := output o1 in
  let di : gmap string string :=
    <["Base Model" := ab]> (<["trained model" := at']> {["question" := q]}) in
  Ok di.

(** The row [di] tabulates the element [e]: its question is the element's
    input, its trained-model column the first output, its base-model column
    the second. *)
Definition tabulates (e : EvalResult) (di : gmap string string) : Prop :=
  exists o0 o1,
    outputs e !! 0 = Some o0
    /\ outputs e !! 1 = Some o1
    /\ di !! "question" = Some (input e)
    /\ di !! "trained model" = Some (output o0)
    /\ di !! "Base Model" = Some (output o1).

(** Lines 393-398: the loop appending to [lofd]. *)
Fixpoint report_loop (results : list EvalResult)
    (lofd : list (gmap string string)) : result (list (gmap string string)) :=
  match results with
  | [] => Ok lofd
  | e :: rest => let! di := report_row e in report_loop rest (lofd ++ [di])
  end.

(** Lines 392-398. *)
Definition eval_report (out : Evaluation) : result (list (gmap string string)) :=
  report_loop (eval_results out) [].

(** ** Training configuration *)

(** Line 185. *)
Definition max_steps : Z := 3.

(** Lines 191-192 and 283. *)
Definition trained_model_name : string :=
  "lamini_docs_" +:+ pretty max_steps +:+ "_steps".
Definition output_dir : string := trained_model_name.
Definition save_dir : string := output_dir +:+ "/final".

(** Line 82. *)
Definition model_name : string := "EleutherAI/pythia-70m".

(** The keyword arguments of lines 198-235. *)
Record TrainingArguments : Type := {
  arg_learning_rate : Q;
  arg_num_train_epochs : nat;
  arg_max_steps : Z;
  arg_per_device_train_batch_size : nat;
  arg_output_dir : string;
  arg_overwrite_output_dir : bool;
  arg_disable_tqdm : bool;
  arg_eval_steps : nat;
  arg_save_steps : nat;
  arg_warmup_steps : nat;
  arg_per_device_eval_batch_size : nat;
  arg_evaluation_strategy : string;
  arg_logging_strategy : string;
  arg_logging_steps : nat;
  arg_optim : string;
  arg_gradient_accumulation_steps : nat;
  arg_gradient_checkpointing : bool;
  arg_load_best_model_at_end : bool;
  arg_save_total_limit : nat;
  arg_metric_for_best_model : string;
  arg_greater_is_better : bool
}.

(** Lines 198-235. *)
Definition training_args : TrainingArguments := {|
  arg_learning_rate := 1 # 100000;
  arg_num_train_epochs := 1;
  arg_max_steps := max_steps;
  arg_per_device_train_batch_size := 1;
  arg_output_dir := output_dir;
  arg_overwrite_output_dir := false;
  arg_disable_tqdm := false;
  arg_eval_steps := 120;
  arg_save_steps := 120;
  arg_warmup_steps := 1;
  arg_per_device_eval_batch_size := 1;
  arg_evaluation_strategy := "steps";
  arg_logging_strategy := "steps";
  arg_logging_steps := 1;
  arg_optim := "adafactor";
  arg_gradient_accumulation_steps := 4;
  arg_gradient_checkpointing := false;
  arg_load_best_model_at_end := true;
  arg_save_total_limit := 1;
  arg_metric_for_best_model := "eval_loss";
  arg_greater_is_better := false
|}.

(** ** The framework behind the model objects *)

(** What the script leaves to the libraries it calls: the parameter values of
    a network, the content of a checkpoint directory, the registry of
    pretrained models, how parameters are written to and read from a
    directory, generation as a function of the parameters (no sampling), and
    one optimizer update on a batch. *)
Record Framework : Type := {
  Params : Type;
  Checkpoint : Type;
  hub : string -> option Params;
  serialize : Params -> Checkpoint;
  deserialize : Checkpoint -> option Params;
  forward_generate : Params -> list (list Z) -> nat -> result (list (list Z));
  optimizer_step : TrainingArguments -> Params -> list Example -> Params
}.


Section Script.

Context {fw : Framework}.

(** *** The training driver *)

(** Modelled from the spec: the batch of optimization step [i] of the
    training driver, which is not among the sources ("runs the configured
    number of optimization steps over the train split").  The split is walked
    in batches of [per_device_train_batch_size] rows, starting over at its
    end. *)
Definition batch_at (args : TrainingArguments) (train_dataset : list Example)
    (i : nat) : list Example :=
  let size := arg_per_device_train_batch_size args in
  take size (drop ((i * size) mod length train_dataset) train_dataset).

(** Modelled from the spec: the number of batches in one pass (epoch) of the
    training driver over the split. *)
Definition batches_per_epoch (args : TrainingArguments)
    (train_dataset : list Example) : nat :=
  let size := arg_per_device_train_batch_size args in
  (length train_dataset + size - 1) / size.

(** Modelled from the spec: the number of optimization steps of [Trainer]
    ([Trainer] comes from the repository's [utilities] module, which is not
    among the sources).  The spec: "step cap (overrides epoch count when
    non-negative)"; line 206 of the script: "each step is a batch of data". *)
Definition configured_steps (args : TrainingArguments)
    (train_dataset : list Example) : nat :=
  if (0 <=? arg_max_steps args)%Z
  then Z.to_nat (arg_max_steps args)
  else arg_num_train_epochs args * batches_per_epoch args train_dataset.

(** The progress of a run of [train]: the parameters, the number of
    optimization steps performed, and the batch each of them used. *)
Record TrainState : Type := {
  weights : Params fw;
  global_step : nat;
  steps : list (list Example)
}.

(** Modelled from the spec: [n] further optimization steps. *)
Fixpoint run_steps (args : TrainingArguments) (train_dataset : list Example)
    (n : nat) (st : TrainState) : TrainState :=
  match n with
  | O => st
  | S n' =>
      let batch := batch_at args train_dataset (global_step st) in
      run_steps args train_dataset n'
        {| weights := optimizer_step fw args (weights st) batch;
           global_step := S (global_step st);
           steps := steps st ++ [batch] |}
  end.

(** Modelled from the spec: [Trainer.train()] of the repository's [utilities]
    module, which is not among the sources.  The spec: "[train()] runs the
    configured number of optimization steps over the train split", "a step
    failure is fatal to the run".  A step needs a batch, which an empty split
    cannot give. *)
Definition train (args : TrainingArguments) (train_dataset : list Example)
    (p : Params fw) : result TrainState :=
  match train_dataset with
  | [] => Raise (LibraryError "the train split has no batch")
  | _ :: _ =>
      Ok (run_steps args train_dataset (configured_steps args train_dataset)
            {| weights := p; global_step := 0; steps := [] |})
  end.

(** *** Model objects and the state of the script *)

(** A model object: its parameters and the device they are placed on. *)
Record ModelObj : Type := { params : Params fw; placed : Device }.

(** The model as [inference] sees it.  [generate] wants its input on the
    model's device and computes from the parameters. *)
Definition as_model (o : ModelObj) : Model := {|
  model_device := placed o;
  generate input_ids max_length :=
    if decide (t_device input_ids = placed o)
    then let! rows := forward_generate fw (params o) (t_rows input_ids)
                        max_length in
         Ok (tensor (placed o) rows)
    else Raise (LibraryError "tensors on different devices")
|}.

(** The [Trainer] object of line 260: it holds the model object it was given,
    not a copy. *)
Record TrainerObj : Type := {
  trainer_model : nat;
  trainer_args : TrainingArguments;
  trainer_train_dataset : list Example;
  trainer_eval_dataset : list Example;
  trainer_total_steps : Z;
  trainer_steps_done : nat
}.

(** The state the statements act on: the model objects (a handle is a
    position in [heap]), the script variables that hold handles, the trainer,
    the checkpoint directories, and what was printed. *)
Record World : Type := {
  heap : list ModelObj;
  vars : gmap string nat;
  trainer : option TrainerObj;
  disk : gmap string (Checkpoint fw);
  stdout : list string
}.

(** The statements of the script that mention a model object, the trainer or
    a checkpoint directory, and [Elsewhere] for the others (the hosted
    runner of lines 338-340 and 378-386, the scan of lines 346-351, the
    report of lines 392-402). *)
Inductive stmt : Type :=
| FromPretrained (x name : string) (local_files_only : bool)
| To (x : string)
| Inspect (x : string)
| PrintInference (text x : string) (tokenizer : Tokenizer)
| MakeTrainer (x : string) (args : TrainingArguments)
    (train_dataset eval_dataset : list Example)
| Train
| SaveModel (dir : string)
| Elsewhere.

(** The object a variable refers to. *)
Definition deref (x : string) (w : World) : result (nat * ModelObj) :=
  match vars w !! x with
  | None => Raise (NameError x)
  | Some h =>
      match heap w !! h with
      | None => Raise (LibraryError "no such object")
      | Some o => Ok (h, o)
      end
  end.

(** [AutoModelForCausalLM.from_pretrained(name, local_files_only=..)]: a
    directory of that name is read; otherwise the registry is asked, unless
    only local files are allowed. *)
Definition from_pretrained (name : string) (local_files_only : bool)
    (w : World) : result (Params fw) :=
  match disk w !! name with
  | Some ck =>
      match deserialize fw ck with
      | Some p => Ok p
      | None => Raise (LibraryError "unreadable checkpoint")
      end
  | None =>
      if local_files_only
      then Raise (LibraryError "no such directory")
      else match hub fw name with
           | Some p => Ok p
           | None => Raise (LibraryError "no such model")
           end
  end.

Section Exec.

(** What [torch.cuda.device_count()] reports. *)
Context (device_count : Z).

(** One statement. *)
Definition exec (s : stmt) (w : World) : result World :=
  match s with
  | FromPretrained x name local_files_only =>
      (* x = AutoModelForCausalLM.from_pretrained(name, ...) *)
      let! p := from_pretrained name local_files_only w in
      Ok {| heap := heap w ++ [{| params := p; placed := cpu |}];
            vars := <[x := length (heap w)]> (vars w);
            trainer := trainer w; disk := disk w; stdout := stdout w |}
  | To x =>
      (* x.to(device) *)
      let! ho := deref x w in
      Ok {| heap := <[ho.1 := {| params := params ho.2;
                                 placed := (device device_count).2 |}]> (heap w);
            vars := vars w; trainer := trainer w; disk := disk w;
            stdout := stdout w |}
  | Inspect x =>
      (* floating_point_ops, print(x), get_memory_footprint *)
      let! _ := deref x w in Ok w
  | PrintInference text x tokenizer =>
      (* print(inference(text, x, tokenizer)) *)
      let! ho := deref x w in
      let! answer := inference_default text (as_model ho.2) tokenizer in
      Ok {| heap := heap w; vars := vars w; trainer := trainer w;
            disk := disk w; stdout := stdout w ++ [answer] |}
  | MakeTrainer x args train_dataset eval_dataset =>
      (* trainer = Trainer(model=x, total_steps=max_steps, args=args, ...) *)
      let! ho := deref x w in
      Ok {| heap := heap w; vars := vars w;
            trainer := Some {| trainer_model := ho.1; trainer_args := args;
                               trainer_train_dataset := train_dataset;
                               trainer_eval_dataset := eval_dataset;
                               trainer_total_steps := max_steps;
                               trainer_steps_done := 0 |};
            disk := disk w; stdout := stdout w |}
  | Train =>
      (* training_output = trainer.train() *)
      match trainer w with
      | None => Raise (NameError "trainer")
      | Some t =>
          let! o := subscript (heap w) (trainer_model t) in
          let! st := train (trainer_args t) (trainer_train_dataset t)
                       (params o) in
          Ok {| heap := <[trainer_model t := {| params := weights st;
                                                placed := placed o |}]> (heap w);
                vars := vars w;
                trainer := Some {| trainer_model := trainer_model t;
                                   trainer_args := trainer_args t;
                                   trainer_train_dataset := trainer_train_dataset t;
                                   trainer_eval_dataset := trainer_eval_dataset t;
                                   trainer_total_steps := trainer_total_steps t;
                                   trainer_steps_done :=
                                     trainer_steps_done t + global_step st |};
                disk := disk w; stdout := stdout w |}
      end
  | SaveModel dir =>
      (* trainer.save_model(dir) *)
      match trainer w with
      | None => Raise (NameError "trainer")
      | Some t =>
          let! o := subscript (heap w) (trainer_model t) in
          Ok {| heap := heap w; vars := vars w; trainer := trainer w;
                disk := <[dir := serialize fw (params o)]> (disk w);
                stdout := stdout w |}
      end
  | Elsewhere => Ok w
  end.

(** Statements in sequence; the first exception ends the run. *)
Fixpoint run (prog : list stmt) (w : World) : result World :=
  match prog with
  | [] => Ok w
  | s :: rest => let! w' := exec s w in run rest w'
  end.

End Exec.

(** The script from line 117 on, given the first test question (lines 173
    and 306), the three tokenizers (lines 104, 326, 360) and the splits. *)
Definition script (test_question : string)
    (tokenizer tokenizer_longer base_tokenizer : Tokenizer)
    (train_dataset test_dataset : list Example) : list stmt := [
  FromPretrained "base_model" model_name false;                    (* 117 *)
  To "base_model";                                                  (* 135 *)
  PrintInference test_question "base_model" tokenizer;              (* 177 *)
  Inspect "base_model";                                             (* 241-254 *)
  MakeTrainer "base_model" training_args train_dataset test_dataset; (* 260 *)
  Train;                                                            (* 275 *)
  SaveModel save_dir;                                               (* 285 *)
  FromPretrained "finetuned_slightly_model" save_dir true;          (* 292 *)
  To "finetuned_slightly_model";                                    (* 298 *)
  PrintInference test_question "finetuned_slightly_model" tokenizer; (* 310 *)
  FromPretrained "finetuned_longer_model"
    "lamini/lamini_docs_finetuned" false;                           (* 325 *)
  To "finetuned_longer_model";                                      (* 328 *)
  PrintInference test_question "finetuned_longer_model"
    tokenizer_longer;                                               (* 330 *)
  Elsewhere;                                                        (* 338-351 *)
  FromPretrained "base_model" "EleutherAI/pythia-70m" false;        (* 361 *)
  PrintInference "What do you think of Mars?" "base_model"
    base_tokenizer;                                                 (* 362 *)
  PrintInference "What do you think of Mars?" "finetuned_longer_model"
    tokenizer_longer;                                               (* 370 *)
  Elsewhere                                                         (* 378-402 *)
].

(** The state before line 117: no model object, no trainer, nothing printed,
    and whatever directories exist. *)
Definition boot (disk0 : gmap string (Checkpoint fw)) : World :=
  {| heap := []; vars := ∅; trainer := None; disk := disk0; stdout := [] |}.



End Script.

Arguments TrainState : clear implicits.
Arguments ModelObj : clear implicits.
Arguments World : clear implicits.

(** ** Small concrete collaborators, used to run the definitions *)

Module Toy.

Definition codes (s : string) : list Z :=
  (fun c => Z.of_nat (nat_of_ascii c)) <$> list_ascii_of_string s.

Definition uncodes (row : list Z) : string :=
  string_of_list_ascii ((fun z => ascii_of_nat (Z.to_nat z)) <$> row).

(** One token per character; truncation keeps the first [max_length]. *)
Definition char_tokenizer : Tokenizer := {|
  encode text truncation max_length :=
    Ok (tensor cpu [if truncation then take max_length (codes text)
                    else codes text]);
  batch_decode tokens _ := Ok (uncodes <$> tokens)
|}.

(** A model that continues every prompt with the prompt again, up to the
    total bound. *)
Definition parrot_model : Model := {|
  model_device := cpu;
  generate input max_length :=
    Ok {| t_device := t_device input;
          t_rows := (fun row =>
                       row ++ take (max_length - length row) row)
                    <$> t_rows input |}
|}.

(** A model that continues with exclamation marks up to the total bound. *)
Definition shouting_model : Model := {|
  model_device := cpu;
  generate input max_length :=
    Ok {| t_device := t_device input;
          t_rows := (fun row =>
                       row ++ replicate (max_length - length row) 33%Z)
                    <$> t_rows input |}
|}.

(** A model whose generation loop appends a token and then tests its
    stopping criterion: it continues with exclamation marks until the row has
    [max_length] tokens, and appends one in any case. *)
Definition eager_model : Model := {|
  model_device := cpu;
  generate input max_length :=
    Ok {| t_device := t_device input;
          t_rows := (fun row =>
                       row ++ replicate (Nat.max 1 (max_length - length row))
                                33%Z)
                    <$> t_rows input |}
|}.

(** A tokenizer like [char_tokenizer] whose decoding puts a space after
    every token. *)
Definition spaced_tokenizer : Tokenizer := {|
  encode := encode char_tokenizer;
  batch_decode tokens _ :=
    Ok ((fun row => uncodes (row ≫= fun z => [z; 32%Z])) <$> tokens)
|}.

(** Three rows in the style of the dataset. *)
Definition three_rows : list Example := [
  {| question := "Why do we shiver when we are cold?";
     answer := "Let's keep the discussion relevant to Lamini." |};
  {| question := "Does Lamini support batching?";
     answer := "Yes, requests can be sent in batches." |};
  {| question := "Why do cats purr?";
     answer := "Let's keep the discussion relevant to Lamini." |}
].

(** An evaluation of two inputs, each with a trained and a base output. *)
Definition two_results : Evaluation := {|
  eval_results := [
    {| input := "Does Lamini support batching?";
       outputs := [ {| output := "Yes, it does." |};
                    {| output := "I am not sure what you mean" |} ] |};
    {| input := "Why do cats purr?";
       outputs := [ {| output := "Let's keep the discussion relevant." |};
                    {| output := "Cats purr because cats purr" |} ] |}
  ]
|}.

(** The same with the base output of the second input missing. *)
Definition lone_output : Evaluation := {|
  eval_results := [
    {| input := "Does Lamini support batching?";
       outputs := [ {| output := "Yes, it does." |};
                    {| output := "I am not sure what you mean" |} ] |};
    {| input := "Why do cats purr?";
       outputs := [ {| output := "Let's keep the discussion relevant." |} ] |}
  ]
|}.

(** A framework to run the script with: the parameters are a list of
    numbers, a checkpoint is that list, an optimizer update appends the size
    of its batch, and generation continues a prompt, up to the bound, with a
    character chosen by the number of updates the parameters went through. *)
Definition numbers : Framework := {|
  Params := list Z;
  Checkpoint := list Z;
  hub name :=
    if decide (name = "EleutherAI/pythia-70m") then Some [70%Z]
    else if decide (name = "lamini/lamini_docs_finetuned") then Some [70%Z; 2%Z]
    else None;
  serialize p := p;
  deserialize ck := Some ck;
  forward_generate p rows max_length :=
    Ok ((fun row =>
           row ++ replicate (max_length - length row)
                    (32 + Z.of_nat (length p))%Z) <$> rows);
  optimizer_step _ p batch := p ++ [Z.of_nat (length batch)]
|}.

(** The script on [numbers] and [char_tokenizer], with one accelerator. *)
Definition toy_script : list stmt :=
  script "Why do cats purr?" char_tokenizer char_tokenizer char_tokenizer
    three_rows three_rows.

(** The state after the first [n] statements of [toy_script]. *)
Definition world_after (n : nat) : World numbers :=
  match run 1 (take n toy_script) (boot ∅) with
  | Ok w => w
  | Raise _ => boot ∅
  end.

(** The base model object after line 275 of that run, and the trainer. *)
Definition trained_object : ModelObj numbers :=
  @Build_ModelObj numbers [70; 1; 1; 1]%Z cuda.

Definition toy_trainer : TrainerObj := {|
  trainer_model := 0;
  trainer_args := training_args;
  trainer_train_dataset := three_rows;
  trainer_eval_dataset := three_rows;
  trainer_total_steps := max_steps;
  trainer_steps_done := 3
|}.

(** A prompt of 107 characters. *)
Definition long_prompt : string :=
  "What do you think of Mars? What do you think of Mars? "
  +:+ "What do you think of Mars? What do you think of Mars?".

End Toy.

(** ** Reading the scan, the report and the placement of objects *)

(** The rows the scan reports, each with its position in the split: those
    whose answer has the moderation phrase. *)
Definition scan_matches (train_dataset : list Example) : list (nat * Example) :=
  filter (fun ie => PyStr.contains moderation_phrase (answer ie.2) = true)
    (zip (seq 0 (length train_dataset)) train_dataset).

(** What line 349 prints for such a row. *)
Definition match_line (ie : nat * Example) : scan_line :=
  MatchLine ie.1 (question ie.2) (answer ie.2).

(** The keys of the dict of line 397. *)
Definition report_columns : gset string :=
  {[ "question"; "trained model"; "Base Model" ]}.

(** An element of [eval_results] cut down to its first two outputs. *)
Definition first_two (e : EvalResult) : EvalResult :=
  {| input := input e; outputs := take 2 (outputs e) |}.




(** Further concrete collaborators. *)
Module Probe.

(** A model whose [generate] returns a tensor without rows. *)
Definition empty_model : Model := {|
  model_device := cpu;
  generate input _ := Ok {| t_device := t_device input; t_rows := [] |}
|}.

(** A tokenizer whose [encode] refuses every text. *)
Definition refusing_tokenizer : Tokenizer := {|
  encode _ _ _ := Raise (LibraryError "cannot encode");
  batch_decode := batch_decode Toy.char_tokenizer
|}.

End Probe.

(** * Theorems *)

(** ** Strings *)

Module PyStrFacts.
Import PyStr.

Lemma str_app_cons (a : ascii) (s t : string) :
  String a s +:+ t = String a (s +:+ t).
Proof. reflexivity. Qed.

Lemma str_app_nil_l (t : string) : "" +:+ t = t.
Proof. reflexivity. Qed.

Lemma str_app_nil_r (s : string) : s +:+ "" = s.
Proof. induction s as [|a s IH]; [done|]. by rewrite str_app_cons, IH. Qed.

Lemma str_app_assoc (s t u : string) : (s +:+ t) +:+ u = s +:+ t +:+ u.
Proof. induction s as [|a s IH]; [done|]. by rewrite !str_app_cons, IH. Qed.

Lemma str_length_app (s t : string) :
  String.length (s +:+ t) = String.length s + String.length t.
Proof. induction s as [|a s IH]; [done|]. rewrite str_app_cons. simpl. by rewrite IH. Qed.

Lemma slice_from_0 (s : string) : slice_from 0 s = s.
Proof. by destruct s. Qed.

Lemma slice_from_app (p r : string) : slice_from (String.length p) (p +:+ r) = r.
Proof.
  induction p as [|a p IH]; [apply slice_from_0|].
  rewrite str_app_cons. simpl. exact IH.
Qed.

Lemma slice_from_short (n : nat) (d : string) :
  String.length d <= n -> slice_from n d = "".
Proof.
  revert n. induction d as [|a d IH]; intros [|n] Hn; simpl in *; try done; try lia.
  apply IH. lia.
Qed.

Lemma slice_from_spec (n : nat) (d : string) : suffix_beyond n d (slice_from n d).
Proof.
  revert n. induction d as [|a d IH]; intros [|n].
  - by exists "".
  - by exists "".
  - by exists "".
  - destruct (IH n) as (p & Hd & Hp). exists (String a p). split.
    + rewrite str_app_cons. simpl. by rewrite <- Hd.
    + simpl. by rewrite Hp.
Qed.

Lemma suffix_beyond_unique (n : nat) (d r1 r2 : string) :
  suffix_beyond n d r1 -> suffix_beyond n d r2 -> r1 = r2.
Proof.
  intros (p1 & H1 & L1) (p2 & H2 & L2). rewrite <- L2 in L1. clear L2.
  subst d. revert p2 H2 L1.
  induction p1 as [|a p1 IH]; intros [|b p2] H L; simpl in *; try done.
  rewrite !str_app_cons in H. injection H as _ H. apply (IH p2); [done|lia].
Qed.

Lemma prefix_app (s t : string) : String.prefix s (s +:+ t) = true.
Proof.
  induction s as [|a s IH]; [by destruct t|].
  rewrite str_app_cons. simpl. by destruct (ascii_dec a a).
Qed.

Lemma prefix_split (s h : string) :
  String.prefix s h = true -> exists t, h = s +:+ t.
Proof.
  revert h. induction s as [|a s IH]; intros h H.
  - by exists h.
  - destruct h as [|b h]; [done|]. simpl in H.
    destruct (ascii_dec a b) as [->|]; [|done].
    destruct (IH _ H) as [t ->]. by exists t.
Qed.

Lemma contains_nil (needle : string) :
  contains needle "" = String.prefix needle "".
Proof. unfold contains. apply orb_false_r. Qed.

Lemma contains_cons (needle : string) (b : ascii) (hay : string) :
  contains needle (String b hay)
  = String.prefix needle (String b hay) || contains needle hay.
Proof. reflexivity. Qed.

(** [contains] decides [Substring]. *)
Lemma contains_spec (needle hay : string) :
  contains needle hay = true <-> Substring needle hay.
Proof.
  induction hay as [|b hay IH].
  - rewrite contains_nil. split.
    + intros [t Ht]%prefix_split. by exists "", t.
    + intros (pre & post & H). destruct pre as [|c pre]; [|done].
      rewrite str_app_nil_l in H. rewrite H. apply prefix_app.
  - rewrite contains_cons, orb_true_iff, IH. split.
    + intros [[t Ht]%prefix_split|(pre & post & H)].
      * by exists "", t.
      * exists (String b pre), post. by rewrite str_app_cons, H.
    + intros (pre & post & H). destruct pre as [|c pre].
      * left. rewrite str_app_nil_l in H. rewrite H. apply prefix_app.
      * right. rewrite str_app_cons in H. injection H as _ H. by exists pre, post.
Qed.

End PyStrFacts.

(** ** Device selection *)

(** C3: a count of zero selects the general-purpose processor, a count of one
    or more selects the accelerator, and the branch has no third outcome. *)
Theorem device_two_way_split (device_count : Z) :
  (device_count = 0%Z -> (device device_count).2 = cpu)
  /\ ((1 <= device_count)%Z -> (device device_count).2 = cuda)
  /\ ((device device_count).2 = cpu \/ (device device_count).2 = cuda).
Proof.
  unfold device. destruct (Z.gtb_spec device_count 0); simpl.
  - split; [lia|]. split; [done|by right].
  - split; [done|]. split; [lia|by left].
Qed.

(** ** The inference helper *)

Section InferenceFacts.
Import PyStr PyStrFacts.

Variables (text : string) (model : Model) (tokenizer : Tokenizer).
Variables (max_input_tokens max_output_tokens : nat).

Local Abbreviation decoded_is :=
  (decodes_to text model tokenizer max_input_tokens max_output_tokens).

Lemma inference_slices (decoded : string) :
  decoded_is decoded ->
  inference text model tokenizer max_input_tokens max_output_tokens
  = Ok (slice_from (String.length text) decoded).
Proof.
  intros (input_ids & generated & others & He & Hg & Hd).
  unfold inference. rewrite He. simpl. rewrite Hg. simpl. by rewrite Hd.
Qed.

(** Conversely a returned completion always comes from such a run. *)
Lemma inference_Ok_inv (answer : string) :
  inference text model tokenizer max_input_tokens max_output_tokens = Ok answer ->
  exists decoded,
    decoded_is decoded /\ answer = slice_from (String.length text) decoded.
Proof.
  unfold inference, decodes_to.
  destruct (encode tokenizer text true max_input_tokens) as [ids|] eqn:He;
    [simpl|done].
  destruct (generate model _ max_output_tokens) as [gen|] eqn:Hg; [simpl|done].
  destruct (batch_decode tokenizer (t_rows gen) true) as [[|d others]|] eqn:Hd;
    simpl; try done.
  intros [= <-]. exists d. split; [|done]. by exists ids, gen, others.
Qed.

(** C1: when the library calls return, [inference] returns exactly the part
    of the decoded output beyond the first [len(text)] characters, and the
    empty string (no exception) when the decoded output is no longer than the
    prompt text. *)
Theorem inference_returns_suffix (decoded : string) :
  decoded_is decoded ->
  exists answer,
    inference text model tokenizer max_input_tokens max_output_tokens = Ok answer
    /\ suffix_beyond (String.length text) decoded answer
    /\ (forall r, suffix_beyond (String.length text) decoded r -> r = answer)
    /\ (String.length decoded <= String.length text -> answer = "").
Proof.
  intros Hrun. exists (slice_from (String.length text) decoded).
  split; [by apply inference_slices|]. split; [apply slice_from_spec|]. split.
  - intros r Hr. eapply suffix_beyond_unique; [exact Hr|apply slice_from_spec].
  - apply slice_from_short.
Qed.

(** C2, as amended: when the decoded output begins with the prompt text, the
    completion is the decoded output with that one leading copy of the prompt
    removed; it is not stripped further. *)
Theorem inference_strips_echo (rest : string) :
  decoded_is (text +:+ rest) ->
  inference text model tokenizer max_input_tokens max_output_tokens = Ok rest
  /\ starts_with_prompt text
       (inference text model tokenizer max_input_tokens max_output_tokens)
     = String.prefix text rest.
Proof.
  intros Hrun. rewrite (inference_slices _ Hrun), slice_from_app. by split.
Qed.

(** C10, as amended: [max_output_tokens] is what [generate] receives as
    [max_length].  When the prompt's (truncated) encoding already has that
    many tokens, and this call of [generate] returns the prompt row extended
    to at most [max(max_length, prompt length)] tokens, and the tokenizer
    decodes the prompt's own tokens to no more characters than the text has,
    then no token was added and the completion is empty. *)
Theorem inference_empty_when_prompt_fills_bound
    (input_ids generated : Tensor) (row new : list Z) (decoded : string)
    (others : list string) :
  encode tokenizer text true max_input_tokens = Ok input_ids ->
  t_rows input_ids = [row] ->
  max_output_tokens <= length row ->
  generate model (tensor_to input_ids (model_device model)) max_output_tokens
    = Ok generated ->
  t_rows generated = [row ++ new] ->
  length (row ++ new) <= Nat.max max_output_tokens (length row) ->
  batch_decode tokenizer [row] true = Ok (decoded :: others) ->
  String.length decoded <= String.length text ->
  new = []
  /\ inference text model tokenizer max_input_tokens max_output_tokens = Ok "".
Proof.
  intros He Hrow Hfull Hg Hrows Hcap Hd Hlen.
  assert (new = []) as ->.
  { rewrite length_app in Hcap. destruct new; [done|]. simpl in Hcap. lia. }
  split; [done|]. rewrite app_nil_r in Hrows.
  rewrite (inference_slices decoded).
  - by rewrite slice_from_short.
  - exists input_ids, generated, others. rewrite Hrows. done.
Qed.

End InferenceFacts.

(** ** The helper run on concrete collaborators *)

Module ToyFacts.
Import Toy.

Example mars_with_shouting :
  inference "What do you think of Mars?" shouting_model char_tokenizer 1000 30
  = Ok "!!!!".
Proof. reflexivity. Qed.

Example mars_with_parrot :
  inference_default "What do you think of Mars?" parrot_model char_tokenizer
  = Ok "What do you think of Mars?".
Proof. reflexivity. Qed.

Example truncated_prompt :
  inference "What do you think of Mars?" shouting_model char_tokenizer 4 8
  = Ok "".
Proof. reflexivity. Qed.

End ToyFacts.

(** C1 at a prompt of 26 characters whose decoded output has 30. *)
Lemma inference_returns_suffix_witness :
  exists answer,
    inference "What do you think of Mars?" Toy.shouting_model
      Toy.char_tokenizer 1000 30 = Ok answer
    /\ PyStr.suffix_beyond 26 "What do you think of Mars?!!!!" answer
    /\ (forall r,
          PyStr.suffix_beyond 26 "What do you think of Mars?!!!!" r ->
          r = answer)
    /\ (30 <= 26 -> answer = "").
Proof.
  apply (inference_returns_suffix "What do you think of Mars?"
           Toy.shouting_model Toy.char_tokenizer 1000 30
           "What do you think of Mars?!!!!").
  do 3 eexists. split; [reflexivity|]. split; reflexivity.
Defined.

(** C2 as stated fails: the prompt of line 362 has 26 tokens, fewer than
    [max_input_tokens = 1000], and with a model that continues the prompt by
    repeating it the completion is the prompt text itself; an empty prompt is
    a prefix of whatever is returned. *)
Lemma completion_can_start_with_prompt :
  encoded_length Toy.char_tokenizer "What do you think of Mars?" 1000 = Ok 26
  /\ starts_with_prompt "What do you think of Mars?"
       (inference_default "What do you think of Mars?" Toy.parrot_model
          Toy.char_tokenizer) = true
  /\ encoded_length Toy.char_tokenizer "" 1000 = Ok 0
  /\ starts_with_prompt ""
       (inference_default "" Toy.shouting_model Toy.char_tokenizer) = true.
Proof. repeat split; reflexivity. Qed.

(** C2 as amended, at a decoded output that begins with the prompt. *)
Lemma inference_strips_echo_witness :
  inference "What do you think of Mars?" Toy.shouting_model
    Toy.char_tokenizer 1000 30 = Ok "!!!!"
  /\ starts_with_prompt "What do you think of Mars?"
       (inference "What do you think of Mars?" Toy.shouting_model
          Toy.char_tokenizer 1000 30)
     = String.prefix "What do you think of Mars?" "!!!!".
Proof.
  apply (inference_strips_echo "What do you think of Mars?"
           Toy.shouting_model Toy.char_tokenizer 1000 30 "!!!!").
  do 3 eexists. split; [reflexivity|]. split; reflexivity.
Defined.

(** C10 as amended, at the defaults, with the trained object of the run on
    [Toy.numbers] as the model: a prompt of 107 tokens against
    [max_output_tokens = 100] and [max_input_tokens = 1000]. *)
Lemma inference_empty_when_prompt_fills_bound_witness :
  (@nil Z) = []
  /\ inference Toy.long_prompt (as_model Toy.trained_object)
       Toy.char_tokenizer 1000 100 = Ok "".
Proof.
  apply (inference_empty_when_prompt_fills_bound Toy.long_prompt
           (as_model Toy.trained_object) Toy.char_tokenizer 1000 100
           (tensor cpu [Toy.codes Toy.long_prompt])
           (tensor cuda [Toy.codes Toy.long_prompt])
           (Toy.codes Toy.long_prompt) [] Toy.long_prompt []).
  - reflexivity.
  - reflexivity.
  - vm_compute. lia.
  - vm_compute. reflexivity.
  - vm_compute. reflexivity.
  - vm_compute. lia.
  - reflexivity.
  - vm_compute. lia.
Defined.

(** C10 as stated fails in two ways.  With the defaults and a prompt of 107
    tokens, a model that appends a token before it tests the bound returns
    108 tokens, and the completion is that token.  With a model that adds
    nothing, a tokenizer whose decoding of the prompt tokens is longer than
    the text leaves the tail of the decoded prompt as the completion. *)
Lemma full_prompt_can_get_completion :
  encoded_length Toy.char_tokenizer Toy.long_prompt 1000 = Ok 107
  /\ inference_default Toy.long_prompt Toy.eager_model Toy.char_tokenizer
     = Ok "!"
  /\ encoded_length Toy.spaced_tokenizer "Hi!" 1000 = Ok 3
  /\ generate Toy.shouting_model (tensor cpu [Toy.codes "Hi!"]) 2
     = Ok (tensor cpu [Toy.codes "Hi!"])
  /\ inference "Hi!" Toy.shouting_model Toy.spaced_tokenizer 1000 2
     = Ok " ! ".
Proof. repeat split; vm_compute; reflexivity. Qed.

(** ** The moderation scan *)

Section ScanFacts.
Import PyStr PyStrFacts.

Lemma scan_body_hit (ds : list Example) (i : nat) (e : Example) (st : scan_state) :
  ds !! i = Some e -> moderated e ->
  scan_body ds i st
  = Ok {| count := count st + 1;
          scan_printed :=
            scan_printed st ++ [MatchLine i (question e) (answer e)] |}.
Proof.
  intros Hi He. unfold scan_body, subscript. rewrite Hi. simpl.
  apply contains_spec in He. by rewrite He.
Qed.

Lemma scan_body_miss (ds : list Example) (i : nat) (e : Example) (st : scan_state) :
  ds !! i = Some e -> ~ moderated e -> scan_body ds i st = Ok st.
Proof.
  intros Hi He. unfold scan_body, subscript. rewrite Hi. simpl.
  destruct (contains moderation_phrase (answer e)) eqn:Hc; [|done].
  by apply contains_spec in Hc.
Qed.

(** The loop from index [length done] on, over the rows not yet visited. *)
Lemma scan_loop (todo : list Example) :
  forall (done : list Example) (k : nat) (st : scan_state),
    exactly moderated todo k ->
    exists st',
      for_each (scan_body (done ++ todo)) (seq (length done) (length todo)) st
      = Ok st'
      /\ count st' = count st + k
      /\ length (scan_printed st') = length (scan_printed st) + k.
Proof.
  induction todo as [|e todo IH]; intros done k st Hk.
  - inversion Hk; subst. exists st. simpl. repeat split; lia.
  - assert (Hi : (done ++ e :: todo) !! length done = Some e)
      by apply list_lookup_middle, eq_refl.
    assert (Hsplit : done ++ e :: todo = (done ++ [e]) ++ todo)
      by (by rewrite <- app_assoc).
    assert (Hlen : S (length done) = length (done ++ [e]))
      by (rewrite length_app; simpl; lia).
    simpl length. simpl seq. simpl for_each.
    inversion Hk as [|x l k' Hx Hrest|x l k' Hx Hrest]; subst.
    + rewrite (scan_body_hit _ _ e st Hi Hx). simpl.
      rewrite Hsplit, Hlen.
      match goal with
      | |- context [for_each _ _ ?s] =>
          destruct (IH (done ++ [e]) k' s Hrest) as (st' & Hrun & Hc & Hp)
      end.
      exists st'. split; [exact Hrun|]. simpl in Hc, Hp.
      rewrite length_app in Hp. simpl in Hp. split; lia.
    + rewrite (scan_body_miss _ _ e st Hi Hx). simpl.
      rewrite Hsplit, Hlen.
      destruct (IH (done ++ [e]) k st Hrest) as (st' & Hrun & Hc & Hp).
      by exists st'.
Qed.

(** C4: on a train split in which exactly [k] answers contain the moderation
    phrase, the scan returns, its last [print] is the count, and the count
    is [k]; the loop printed one line per match before it. *)
Theorem moderation_scan_counts (train_dataset : list Example) (k : nat) :
  exactly moderated train_dataset k ->
  exists st,
    moderation_scan train_dataset = Ok st
    /\ count st = k
    /\ last (scan_printed st) = Some (CountLine k)
    /\ length (scan_printed st) = S k.
Proof.
  intros Hk. unfold moderation_scan.
  destruct (scan_loop train_dataset [] k {| count := 0; scan_printed := [] |} Hk)
    as (st & Hrun & Hc & Hp).
  simpl in Hrun, Hc, Hp. rewrite Hrun. simpl. eexists. split; [reflexivity|].
  simpl. rewrite Hc, last_snoc, length_app, Hp. simpl. repeat split; lia.
Qed.

End ScanFacts.

(** A split of three rows, two of which carry the phrase. *)
Lemma moderation_scan_counts_witness :
  exists st,
    moderation_scan Toy.three_rows = Ok st
    /\ count st = 2
    /\ last (scan_printed st) = Some (CountLine 2)
    /\ length (scan_printed st) = 3.
Proof.
  apply (moderation_scan_counts Toy.three_rows 2).
  unfold Toy.three_rows.
  apply exactly_hit; [apply PyStrFacts.contains_spec; reflexivity|].
  apply exactly_miss;
    [intros H; apply PyStrFacts.contains_spec in H; discriminate H|].
  apply exactly_hit; [apply PyStrFacts.contains_spec; reflexivity|].
  apply exactly_nil.
Defined.

(** ** The evaluation report *)

Section ReportFacts.

Lemma report_row_ok (e : EvalResult) :
  2 <= length (outputs e) ->
  exists di, report_row e = Ok di /\ tabulates e di.
Proof.
  unfold report_row, tabulates, subscript.
  destruct (outputs e) as [|o0 [|o1 rest]] eqn:Ho; simpl; try lia. intros _.
  eexists. split; [reflexivity|]. exists o0, o1.
  repeat split; by simplify_map_eq.
Qed.

Lemma report_row_raises (e : EvalResult) :
  length (outputs e) < 2 -> report_row e = Raise IndexError.
Proof.
  unfold report_row, subscript.
  destruct (outputs e) as [|o0 [|o1 rest]]; simpl; try done. lia.
Qed.

Lemma report_loop_ok (results : list EvalResult) :
  forall lofd : list (gmap string string),
    Forall (fun e => 2 <= length (outputs e)) results ->
    exists rows,
      report_loop results lofd = Ok (lofd ++ rows)
      /\ Forall2 tabulates results rows.
Proof.
  induction results as [|e results IH]; intros lofd Hall.
  - exists []. by rewrite app_nil_r.
  - apply Forall_cons in Hall as [He Hall].
    destruct (report_row_ok e He) as (di & Hdi & Hrow).
    destruct (IH (lofd ++ [di]) Hall) as (rows & Hrun & Hrows).
    exists (di :: rows). simpl. rewrite Hdi. simpl.
    rewrite Hrun, <- app_assoc. split; [done|]. by constructor.
Qed.

Lemma report_loop_raises (results : list EvalResult) :
  forall lofd : list (gmap string string),
    Exists (fun e => length (outputs e) < 2) results ->
    report_loop results lofd = Raise IndexError.
Proof.
  induction results as [|e results IH]; intros lofd Hex.
  - by apply Exists_nil in Hex.
  - simpl. destruct (decide (length (outputs e) < 2)) as [Hshort|Hlong].
    + by rewrite report_row_raises.
    + destruct (report_row_ok e ltac:(lia)) as (di & -> & _). simpl.
      apply IH. apply Exists_cons in Hex as [?|?]; done.
Qed.

(** C9: the report has one row per element of [eval_results], in order, each
    carrying the element's input, [outputs[0].output] and
    [outputs[1].output]; this needs two outputs in every element, and an
    element with fewer ends the construction with an [IndexError]. *)
Theorem eval_report_rows (out : Evaluation) :
  (Forall (fun e => 2 <= length (outputs e)) (eval_results out) ->
   exists lofd,
     eval_report out = Ok lofd /\ Forall2 tabulates (eval_results out) lofd)
  /\ (Exists (fun e => length (outputs e) < 2) (eval_results out) ->
      eval_report out = Raise IndexError).
Proof.
  unfold eval_report. split.
  - intros Hall. destruct (report_loop_ok _ [] Hall) as (rows & Hrun & Hrows).
    by exists rows.
  - apply report_loop_raises.
Qed.

End ReportFacts.

(** C9 on an evaluation of two inputs, and on one whose second input has a
    single output. *)
Lemma eval_report_rows_witness :
  (exists lofd,
     eval_report Toy.two_results = Ok lofd
     /\ Forall2 tabulates (eval_results Toy.two_results) lofd)
  /\ eval_report Toy.lone_output = Raise IndexError.
Proof.
  split.
  - apply (proj1 (eval_report_rows Toy.two_results)).
    repeat constructor.
  - apply (proj2 (eval_report_rows Toy.lone_output)).
    apply Exists_cons_tl, Exists_cons_hd. simpl. lia.
Defined.

(** ** The training driver *)

Section TrainFacts.

Context {fw : Framework}.

Lemma run_steps_counts (args : TrainingArguments) (ds : list Example) (n : nat) :
  forall st : TrainState fw,
    global_step (run_steps args ds n st) = global_step st + n
    /\ length (steps (run_steps args ds n st)) = length (steps st) + n.
Proof.
  induction n as [|n IH]; intros st; simpl.
  - lia.
  - destruct (IH {| weights := optimizer_step fw args (weights st)
                                 (batch_at args ds (global_step st));
                    global_step := S (global_step st);
                    steps := steps st ++ [batch_at args ds (global_step st)] |})
      as [Hg Hs].
    rewrite Hg, Hs. simpl. rewrite length_app. simpl. lia.
Qed.

(** C7: with the step cap at 3, whatever the epoch count, [train] on a
    non-empty train split returns after exactly 3 optimization steps. *)
Theorem step_cap_overrides_epochs (args : TrainingArguments)
    (train_dataset : list Example) (p : Params fw) :
  arg_max_steps args = 3%Z ->
  train_dataset <> [] ->
  exists st,
    train args train_dataset p = Ok st
    /\ global_step st = 3
    /\ length (steps st) = 3.
Proof.
  intros Hcap Hne. destruct train_dataset as [|e ds]; [done|].
  unfold train, configured_steps. rewrite Hcap.
  change (0 <=? 3)%Z with true. cbv iota.
  eexists. split; [reflexivity|].
  destruct (run_steps_counts args (e :: ds) (Z.to_nat 3)
              {| weights := p; global_step := 0; steps := [] |}) as [Hg Hs].
  rewrite Hg, Hs. simpl. split; reflexivity.
Qed.

End TrainFacts.

(** C7 at the arguments of lines 198-235, which also ask for one epoch, on a
    split of three rows. *)
Lemma step_cap_overrides_epochs_witness :
  arg_num_train_epochs training_args = 1
  /\ exists st,
       train (fw := Toy.numbers) training_args Toy.three_rows [70%Z] = Ok st
       /\ global_step st = 3
       /\ length (steps st) = 3.
Proof.
  split; [reflexivity|].
  apply (step_cap_overrides_epochs (fw := Toy.numbers) training_args
           Toy.three_rows [70%Z]).
  - reflexivity.
  - discriminate.
Defined.

(** ** Model objects across the statements of the script *)

Section ScriptFacts.

Context {fw : Framework} (device_count : Z).




Lemma deref_Ok (x : string) (w : World fw) (h : nat) (o : ModelObj fw) :
  deref x w = Ok (h, o) -> vars w !! x = Some h /\ heap w !! h = Some o.
Proof.
  unfold deref. destruct (vars w !! x) as [h0|]; [|done].
  destruct (heap w !! h0) as [o0|] eqn:Ho; [|done].
  by intros [= <- <-].
Qed.



(** Generation and decoding read the parameters only: two objects with the
    same parameters answer alike, wherever they are placed. *)
Lemma inference_same_params (o o' : ModelObj fw) (text : string)
    (tokenizer : Tokenizer) (max_input_tokens max_output_tokens : nat) :
  params o' = params o ->
  inference text (as_model o') tokenizer max_input_tokens max_output_tokens
  = inference text (as_model o) tokenizer max_input_tokens max_output_tokens.
Proof.
  intros Hp. unfold inference.
  destruct (encode tokenizer text true max_input_tokens) as [ids|]; [|done].
  simpl. rewrite !decide_True by done. rewrite Hp.
  by destruct (forward_generate fw (params o) (t_rows ids) max_output_tokens).
Qed.

End ScriptFacts.

(** Lines 285 and 292 are consecutive statements on the same directory. *)
Example script_saves_then_loads (q : string) (tok1 tok2 tok3 : Tokenizer)
    (train_dataset test_dataset : list Example) :
  take 2 (drop 6 (script q tok1 tok2 tok3 train_dataset test_dataset))
  = [SaveModel save_dir;
     FromPretrained "finetuned_slightly_model" save_dir true]
  /\ save_dir = "lamini_docs_3_steps/final".
Proof. split; reflexivity. Qed.

(** ** The script run on the framework [Toy.numbers] *)

Example toy_script_runs :
  exists w, run 1 Toy.toy_script (boot ∅) = Ok w /\ w = Toy.world_after 18.
Proof. eexists. split; vm_compute; reflexivity. Qed.

Example toy_state_after_training :
  heap (Toy.world_after 6) = [Toy.trained_object]
  /\ trainer (Toy.world_after 6) = Some Toy.toy_trainer
  /\ disk (Toy.world_after 6) = ∅.
Proof. repeat split; vm_compute; reflexivity. Qed.

(** * Further properties of the code *)

(** ** The inference helper: failures, length, truncated prompts *)

Section InferenceMore.
Import PyStr PyStrFacts.

Lemma slice_from_length (n : nat) (s : string) :
  String.length (slice_from n s) = String.length s - n.
Proof.
  revert n. induction s as [|a s IH]; intros [|n]; simpl; done.
Qed.

Lemma slice_from_app_ge (n : nat) (p g : string) :
  String.length p <= n ->
  slice_from n (p +:+ g) = slice_from (n - String.length p) g.
Proof.
  revert n. induction p as [|a p IH]; intros n Hn.
  - rewrite str_app_nil_l. simpl. by rewrite Nat.sub_0_r.
  - destruct n as [|n]; simpl in Hn; [lia|].
    rewrite str_app_cons. simpl. apply IH. lia.
Qed.

Variables (text : string) (model : Model) (tokenizer : Tokenizer).
Variables (max_input_tokens max_output_tokens : nat).

Local Abbreviation helper :=
  (inference text model tokenizer max_input_tokens max_output_tokens).
Local Abbreviation decoded_is :=
  (decodes_to text model tokenizer max_input_tokens max_output_tokens).

(** [inference] returns a completion exactly when the three library calls
    return and [batch_decode] gives at least one string. *)
Theorem inference_returns_iff :
  (exists answer, helper = Ok answer) <-> (exists decoded, decoded_is decoded).
Proof.
  split.
  - intros [answer Ha].
    destruct (inference_Ok_inv _ _ _ _ _ _ Ha) as (decoded & Hd & _).
    by exists decoded.
  - intros [decoded Hd]. eexists. by apply inference_slices.
Qed.

(** An exception of [encode], [generate] or [batch_decode] leaves [inference]
    unchanged, and a decoded batch without strings makes the subscript of
    line 163 raise [IndexError]. *)
Theorem inference_failures :
  (forall e,
     encode tokenizer text true max_input_tokens = Raise e -> helper = Raise e)
  /\ (forall input_ids,
        encode tokenizer text true max_input_tokens = Ok input_ids ->
        (forall e,
           generate model (tensor_to input_ids (model_device model))
             max_output_tokens = Raise e ->
           helper = Raise e)
        /\ (forall generated,
              generate model (tensor_to input_ids (model_device model))
                max_output_tokens = Ok generated ->
              (forall e,
                 batch_decode tokenizer (t_rows generated) true = Raise e ->
                 helper = Raise e)
              /\ (batch_decode tokenizer (t_rows generated) true = Ok [] ->
                  helper = Raise IndexError))).
Proof.
  unfold inference. split.
  - by intros e ->.
  - intros ids ->. simpl. split.
    + by intros e ->.
    + intros gen ->. simpl. split.
      * by intros e ->.
      * by intros ->.
Qed.

(** A returned completion has the length of the decoded output less the
    length of the prompt text, and none when the output is shorter. *)
Theorem inference_answer_length (decoded answer : string) :
  decodes_to text model tokenizer max_input_tokens max_output_tokens decoded ->
  inference text model tokenizer max_input_tokens max_output_tokens = Ok answer ->
  String.length answer = String.length decoded - String.length text.
Proof.
  intros Hd Ha. rewrite (inference_slices _ _ _ _ _ _ Hd) in Ha.
  injection Ha as <-. apply slice_from_length.
Qed.

(** The prompt is removed by length, not by content: when the output decodes
    to [shown +:+ continuation] with [shown] shorter than the prompt text (a
    prompt cut by [max_input_tokens]), the completion lacks the first
    [len(text) - len(shown)] characters of the continuation. *)
Theorem inference_cuts_into_continuation (shown continuation : string) :
  decodes_to text model tokenizer max_input_tokens max_output_tokens
    (shown +:+ continuation) ->
  String.length shown <= String.length text ->
  inference text model tokenizer max_input_tokens max_output_tokens
  = Ok (slice_from (String.length text - String.length shown) continuation).
Proof.
  intros Hd Hlen. rewrite (inference_slices _ _ _ _ _ _ Hd).
  by rewrite slice_from_app_ge.
Qed.

End InferenceMore.

(** A model that returns no row: the helper raises [IndexError]; a tokenizer
    that cannot encode: its exception is the helper's. *)
Lemma inference_failures_witness :
  inference "Hi" Probe.empty_model Toy.char_tokenizer 1000 100
  = Raise IndexError
  /\ inference "Hi" Toy.shouting_model Probe.refusing_tokenizer 1000 100
     = Raise (LibraryError "cannot encode").
Proof.
  split.
  - destruct (inference_failures "Hi" Probe.empty_model
                Toy.char_tokenizer 1000 100) as [_ Hencoded].
    destruct (Hencoded (tensor cpu [Toy.codes "Hi"]) eq_refl)
      as [_ Hgenerated].
    destruct (Hgenerated (tensor cpu []) eq_refl) as [_ Hempty].
    exact (Hempty eq_refl).
  - apply (proj1 (inference_failures "Hi" Toy.shouting_model
                    Probe.refusing_tokenizer 1000 100)).
    reflexivity.
Defined.

(** A decoded output of 30 characters for a prompt of 26. *)
Lemma inference_answer_length_witness :
  String.length "!!!!"
  = String.length "What do you think of Mars?!!!!"
    - String.length "What do you think of Mars?".
Proof.
  apply (inference_answer_length "What do you think of Mars?"
           Toy.shouting_model Toy.char_tokenizer 1000 30
           "What do you think of Mars?!!!!" "!!!!").
  - do 3 eexists. split; [reflexivity|]. split; reflexivity.
  - reflexivity.
Defined.

(** The prompt of 26 characters cut to 4 tokens: of the 26 characters the
    model adds, the completion keeps the last 4. *)
Lemma inference_cuts_into_continuation_witness :
  inference "What do you think of Mars?" Toy.shouting_model
    Toy.char_tokenizer 4 30
  = Ok (PyStr.slice_from (26 - 4) "!!!!!!!!!!!!!!!!!!!!!!!!!!").
Proof.
  apply (inference_cuts_into_continuation "What do you think of Mars?"
           Toy.shouting_model Toy.char_tokenizer 4 30
           "What" "!!!!!!!!!!!!!!!!!!!!!!!!!!").
  - do 3 eexists. split; [reflexivity|]. split; reflexivity.
  - simpl. lia.
Defined.

(** ** The moderation scan: what it prints, and that it never raises *)

Section ScanMore.

Local Abbreviation has_phrase :=
  (fun ie : nat * Example =>
     PyStr.contains moderation_phrase (answer ie.2) = true).

(** The loop from index [length done] on, over the rows not yet visited. *)
Lemma scan_loop_lists (todo : list Example) :
  forall (done : list Example) (st : scan_state),
    for_each (scan_body (done ++ todo)) (seq (length done) (length todo)) st
    = Ok {| count :=
              count st
              + length (filter has_phrase
                          (zip (seq (length done) (length todo)) todo));
            scan_printed :=
              scan_printed st
              ++ (match_line
                    <$> filter has_phrase
                          (zip (seq (length done) (length todo)) todo)) |}.
Proof.
  induction todo as [|e todo IH]; intros done st.
  - simpl. rewrite Nat.add_0_r, app_nil_r. by destruct st.
  - assert (Hi : (done ++ e :: todo) !! length done = Some e)
      by apply list_lookup_middle, eq_refl.
    assert (Hsplit : done ++ e :: todo = (done ++ [e]) ++ todo)
      by (by rewrite <- app_assoc).
    assert (Hlen : S (length done) = length (done ++ [e]))
      by (rewrite length_app; simpl; lia).
    simpl length. simpl seq. simpl zip. simpl for_each.
    unfold scan_body at 1, subscript. rewrite Hi. simpl bind.
    destruct (PyStr.contains moderation_phrase (answer e)) eqn:Hc.
    + rewrite filter_cons_True by done. simpl bind.
      rewrite Hsplit, Hlen, IH. simpl.
      f_equal. f_equal; [lia|]. by rewrite <- app_assoc.
    + rewrite filter_cons_False by (simpl; congruence).
      simpl bind. by rewrite Hsplit, Hlen, IH.
Qed.

Lemma zip_seq_lookup (l : list Example) :
  forall (n i : nat) (e : Example),
    (i, e) ∈ zip (seq n (length l)) l <-> n <= i /\ l !! (i - n) = Some e.
Proof.
  induction l as [|x l IH]; intros n i e; simpl.
  - rewrite elem_of_nil. split; [done|]. by intros [_ ?].
  - rewrite elem_of_cons, IH. split.
    + intros [[= -> ->]|[Hle Hl]].
      * split; [lia|]. by rewrite Nat.sub_diag.
      * split; [lia|]. by replace (i - n) with (S (i - S n)) by lia.
    + intros [Hle Hl]. destruct (decide (i = n)) as [->|Hne].
      * left. rewrite Nat.sub_diag in Hl. simpl in Hl. congruence.
      * right. split; [lia|].
        by replace (i - n) with (S (i - S n)) in Hl by lia.
Qed.

(** The scan never raises.  It prints one line for every row whose answer
    has the phrase, with the row's position, in the order of the split, then
    the number of those lines; the count never exceeds the number of rows. *)
Theorem moderation_scan_lists_matches (train_dataset : list Example) :
  moderation_scan train_dataset
  = Ok {| count := length (scan_matches train_dataset);
          scan_printed :=
            (match_line <$> scan_matches train_dataset)
            ++ [CountLine (length (scan_matches train_dataset))] |}
  /\ (forall (i : nat) (e : Example),
        (i, e) ∈ scan_matches train_dataset
        <-> train_dataset !! i = Some e
            /\ PyStr.contains moderation_phrase (answer e) = true)
  /\ length (scan_matches train_dataset) <= length train_dataset.
Proof.
  split; [|split].
  - unfold moderation_scan.
    pose proof (scan_loop_lists train_dataset []
                  {| count := 0; scan_printed := [] |}) as Hloop.
    simpl in Hloop. by rewrite Hloop.
  - intros i e. unfold scan_matches. rewrite list_elem_of_filter, zip_seq_lookup.
    simpl. rewrite Nat.sub_0_r. split.
    + by intros [? [_ ?]].
    + intros [? ?]. split; [done|]. split; [lia|done].
  - unfold scan_matches. etrans; [apply length_filter|].
    rewrite length_zip, length_seq. lia.
Qed.

End ScanMore.

(** ** The evaluation report: columns, unused outputs, concatenation *)

Section ReportMore.

Lemma report_row_columns (e : EvalResult) (di : gmap string string) :
  report_row e = Ok di -> dom di = report_columns.
Proof.
  unfold report_row, subscript.
  destruct (outputs e) as [|o0 [|o1 rest]]; simpl; try done.
  intros [= <-]. unfold report_columns.
  rewrite !dom_insert_L, dom_singleton_L. set_solver.
Qed.

Lemma report_loop_columns (results : list EvalResult) :
  forall lofd rows : list (gmap string string),
    report_loop results lofd = Ok rows ->
    exists new,
      rows = lofd ++ new
      /\ length new = length results
      /\ Forall (fun di => dom di = report_columns) new.
Proof.
  induction results as [|e results IH]; intros lofd rows Hrun; simpl in Hrun.
  - injection Hrun as <-. exists []. by rewrite app_nil_r.
  - destruct (report_row e) as [di|] eqn:Hrow; [|done]. simpl in Hrun.
    destruct (IH _ _ Hrun) as (new & -> & Hlen & Hall).
    exists (di :: new). rewrite <- app_assoc. split; [done|].
    split; [simpl; lia|]. constructor; [|done].
    by eapply report_row_columns.
Qed.

(** A report that is built has one row per element of [eval_results], and
    every row has the three columns of line 397 and no other. *)
Theorem eval_report_columns (out : Evaluation)
    (lofd : list (gmap string string)) :
  eval_report out = Ok lofd ->
  length lofd = length (eval_results out)
  /\ Forall (fun di => dom di = report_columns) lofd.
Proof.
  intros Hrun. destruct (report_loop_columns _ _ _ Hrun) as (new & -> & ? & ?).
  done.
Qed.

Lemma report_row_first_two (e : EvalResult) :
  report_row (first_two e) = report_row e.
Proof.
  unfold report_row, first_two. simpl.
  by destruct (outputs e) as [|o0 [|o1 rest]].
Qed.

Lemma report_loop_first_two (results : list EvalResult) :
  forall lofd : list (gmap string string),
    report_loop (first_two <$> results) lofd = report_loop results lofd.
Proof.
  induction results as [|e results IH]; intros lofd; [done|].
  simpl. rewrite report_row_first_two.
  destruct (report_row e); [simpl; apply IH|done].
Qed.

(** Outputs beyond the second are never read: the report of an evaluation
    and of the same evaluation with every element cut to its first two
    outputs are the same, rows or exception. *)
Theorem eval_report_reads_two_outputs (out : Evaluation) :
  eval_report {| eval_results := first_two <$> eval_results out |}
  = eval_report out.
Proof. apply report_loop_first_two. Qed.

Lemma report_loop_from (results : list EvalResult) :
  forall lofd : list (gmap string string),
    report_loop results lofd
    = let! rows := report_loop results [] in Ok (lofd ++ rows).
Proof.
  induction results as [|e results IH]; intros lofd; simpl.
  - by rewrite app_nil_r.
  - destruct (report_row e) as [di|]; [simpl|done].
    rewrite (IH (lofd ++ [di])), (IH [di]).
    destruct (report_loop results []); [simpl|done].
    by rewrite <- app_assoc.
Qed.

Lemma report_loop_app (first second : list EvalResult) :
  forall lofd : list (gmap string string),
    report_loop (first ++ second) lofd
    = let! rows := report_loop first lofd in report_loop second rows.
Proof.
  induction first as [|e first IH]; intros lofd; simpl; [done|].
  destruct (report_row e); [simpl; apply IH|done].
Qed.

(** The report of two lists of results one after the other is the report of
    the first followed by the report of the second, and an exception in
    either is the exception of the whole: no partial report is returned. *)
Theorem eval_report_app (first second : list EvalResult) :
  eval_report {| eval_results := first ++ second |}
  = let! rows1 := eval_report {| eval_results := first |} in
    let! rows2 := eval_report {| eval_results := second |} in
    Ok (rows1 ++ rows2).
Proof.
  unfold eval_report. simpl. rewrite report_loop_app.
  destruct (report_loop first []) as [rows1|]; [simpl|done].
  apply report_loop_from.
Qed.

End ReportMore.

(** The report of the evaluation of two inputs. *)
Lemma eval_report_columns_witness :
  exists lofd,
    eval_report Toy.two_results = Ok lofd
    /\ length lofd = 2
    /\ Forall (fun di => dom di = report_columns) lofd.
Proof.
  eexists. split; [reflexivity|].
  apply (eval_report_columns Toy.two_results). reflexivity.
Defined.

(** ** Handles and placements along the script *)

Section ScriptMore.

Context {fw : Framework} (device_count : Z).

Local Abbreviation selected := ((device device_count).2).

(** Moving a model object changes its placement and nothing that
    [inference] returns: the helper puts the input ids on the model's own
    device (lines 153-155), wherever that is. *)
Theorem to_device_keeps_answers (x : string) (w w' : World fw) :
  exec device_count (To x) w = Ok w' ->
  exists h o o',
    deref x w = Ok (h, o)
    /\ deref x w' = Ok (h, o')
    /\ placed o' = selected
    /\ params o' = params o
    /\ forall text tokenizer max_input_tokens max_output_tokens,
         inference text (as_model o') tokenizer
           max_input_tokens max_output_tokens
         = inference text (as_model o) tokenizer
             max_input_tokens max_output_tokens.
Proof.
  simpl. destruct (deref x w) as [[h o]|] eqn:Hd; [|done]. simpl.
  intros [= <-]. apply deref_Ok in Hd as Hd'. destruct Hd' as [Hx Hh].
  exists h, o, {| params := params o; placed := selected |}.
  split; [done|]. split.
  - unfold deref. simpl. rewrite Hx, list_lookup_insert_eq; [done|].
    by eapply lookup_lt_Some.
  - split; [done|]. split; [done|]. intros. by apply inference_same_params.
Qed.








End ScriptMore.

(** Line 135 of the run on [Toy.numbers]. *)
Lemma to_device_keeps_answers_witness :
  exists h o o',
    deref "base_model" (Toy.world_after 1) = Ok (h, o)
    /\ deref "base_model" (Toy.world_after 2) = Ok (h, o')
    /\ placed o' = cuda
    /\ params o' = params o
    /\ forall text tokenizer max_input_tokens max_output_tokens,
         inference text (as_model o') tokenizer
           max_input_tokens max_output_tokens
         = inference text (as_model o) tokenizer
             max_input_tokens max_output_tokens.
Proof.
  apply (to_device_keeps_answers 1 "base_model" (Toy.world_after 1)
           (Toy.world_after 2)).
  vm_compute. reflexivity.
Defined.


